(** * BillyBass: the task-driven motor sequencing engine of billybass.py

    The class [BillyBass] of [billybass.py] is a thread that resolves a task
    name to a method, runs that method again and again on a background
    thread with a pause of 0.2 s between the runs, and is told to finish
    through the boolean attribute [done].

    The development has these layers:
    - [Num]: Python numbers.  Floats are IEEE 754 binary64 values, taken
      from the bit-exact model [SpecFloat] of the Standard Library, because
      the loop of [greet] compares floats with [!=].
    - [Motion]: the methods that move the motors.  Every method becomes the
      list of primitive commands it issues, in order.
    - [Hardware]: sequential execution of commands against the two motors,
      where an actuator write may raise.
    - [Runner]: the object, its context-manager protocol and the background
      thread as a step function; the foreground and the background are
      interleaved by a schedule.
    - [Scenario]: a few concrete runners to evaluate the model on. *)

From Stdlib Require Import ZArith List String Bool Lia SpecFloat.
Import ListNotations.
Open Scope string_scope.
Open Scope list_scope.

(* ================================================================== *)
(** ** Python numbers *)

Module Num.

(** binary64: 53 bits of precision, exponents below 1024. *)
Definition prec : Z := 53.
Definition emax : Z := 1024.

Definition float := spec_float.

(** The float that an integer literal followed by [.0] denotes. *)
Definition of_int (z : Z) : float := binary_normalize prec emax z 0 false.

(** A decimal literal [num/den] denotes the binary64 value nearest to the
    rational; the correctly rounded quotient of two exactly representable
    integers is that value. *)
Definition decimal (num den : Z) : float :=
  SFdiv prec emax (of_int num) (of_int den).

Definition fsub (x y : float) : float := SFsub prec emax x y.
Definition fneg (x : float) : float := SFopp x.
(** [x != y] on floats. *)
Definition fne (x y : float) : bool := negb (SFeqb x y).
Definition fle (x y : float) : bool := SFleb x y.

(** The literals of billybass.py. *)
Definition f1_0 : float := of_int 1.       (* 1.0 *)
Definition f0_0 : float := of_int 0.       (* 0.0 *)
Definition f0_2 : float := decimal 2 10.   (* .2  *)
Definition f0_1 : float := decimal 1 10.   (* 0.1 *)
Definition f0_05 : float := decimal 5 100. (* 0.05 *)

(** A Python number is an [int] or a [float]: the source writes both
    ([steps=[1, -1.0, 0.0]], [throttle = 0], [time.sleep(1)]). *)
Inductive pynum :=
| PyInt (z : Z)
| PyFloat (f : float).

Definition to_float (v : pynum) : float :=
  match v with
  | PyInt z => of_int z
  | PyFloat f => f
  end.

(** [-1.0 <= v <= 1.0], the range a motor's throttle accepts. *)
Definition in_range (v : pynum) : bool :=
  fle (fneg f1_0) (to_float v) && fle (to_float v) f1_0.

(** [d >= lo], for hold durations. *)
Definition at_least (lo : float) (d : pynum) : bool := fle lo (to_float d).

End Num.
Import Num.

(* ================================================================== *)
(** ** Motors, exceptions, commands *)

(** [kit.motor1] and [kit.motor2] of the MotorKit. *)
Inductive motor := motor1 | motor2.

Definition motor_eqb (a b : motor) : bool :=
  match a, b with
  | motor1, motor1 | motor2, motor2 => true
  | _, _ => false
  end.

(** An instance of a subclass of [Exception]: its class and [str(e)]. *)
Record exn := Exn { exn_class : string; exn_str : string }.

Definition ValueError (msg : string) : exn := Exn "ValueError" msg.
Definition KeyError (key : string) : exn := Exn "KeyError" key.
Definition AttributeError (msg : string) : exn := Exn "AttributeError" msg.
Definition RuntimeError (msg : string) : exn := Exn "RuntimeError" msg.

Inductive level := DEBUG | INFO | ERROR.

(** What is handed to the logger.  Messages built with [str] of a number or
    of a list are kept structured. *)
Inductive message :=
| Text (s : string)
| ReleasingMotor (sensitivity : pynum)
| RunningMotor (m : motor) (sensitivity : pynum) (steps : list pynum)
| StrOf (e : exn).

(** The primitive commands a method issues. *)
Inductive cmd :=
| SetThrottle (m : motor) (v : pynum)   (* m.throttle = v *)
| Sleep (d : pynum)                     (* time.sleep(d) *)
| Log (l : level) (msg : message)       (* logger.debug / info / error *)
| Raise (e : exn).                      (* an exception raised by Python code *)

(* ================================================================== *)
(** ** The motion methods *)

Module Motion.

(** [self.motor], assigned once in [__init__] and never rebound.  A dict
    iterates in insertion order. *)
Definition self_motor : list (string * motor) :=
  [("body", motor1); ("mouth", motor2)].

Fixpoint getitem (d : list (string * motor)) (key : string) : option motor :=
  match d with
  | [] => None
  | (k, m) :: d' => if String.eqb k key then Some m else getitem d' key
  end.

(** [self.motor[key]] followed by code that uses the motor; a missing key
    raises [KeyError]. *)
Definition with_motor (key : string) (body : motor -> list cmd) : list cmd :=
  match getitem self_motor key with
  | Some m => body m
  | None => [Raise (KeyError key)]
  end.

Definition release_motor (sensitivity : pynum) : list cmd :=
  [Log DEBUG (ReleasingMotor sensitivity); Sleep sensitivity].

Definition run_motor (m : motor) (sensitivity : pynum) (steps : list pynum)
  : list cmd :=
  Log DEBUG (RunningMotor m sensitivity steps)
  :: flat_map (fun step => SetThrottle m step :: release_motor sensitivity)
              steps.

Definition move_mouth : list cmd :=
  Log DEBUG (Text "Opening mouth")
  :: with_motor "mouth" (fun m =>
       run_motor m (PyFloat f0_1)
                 [PyInt 1; PyFloat (fneg f1_0); PyFloat f0_0]).

Definition move_head : list cmd :=
  Log DEBUG (Text "Moving body")
  :: with_motor "body" (fun m =>
       run_motor m (PyFloat f1_0) [PyFloat f0_0; PyFloat (fneg f1_0)]).

Definition move_tail : list cmd :=
  Log DEBUG (Text "Moving tail")
  :: with_motor "body" (fun m =>
       run_motor m (PyFloat f1_0)
                 [PyFloat f0_0; PyFloat f1_0; PyFloat f0_0]).

Definition trigger : list cmd :=
  Log DEBUG (Text "Responding to trigger word") :: move_head ++ move_mouth.

Definition response : list cmd :=
  Log DEBUG (Text "Responding to query") :: move_mouth.

Definition dance : list cmd :=
  Log DEBUG (Text "Dancing to playlist")
  :: move_head ++ Sleep (PyInt 1) :: move_tail.

(** The loop of [greet]:
<<
    steps = []
    i = 1.0
    while i != -1.0:
        i -= .2
        steps.append(i)
>>
    Whether it ends depends on float rounding, so it runs on fuel:
    [None] means that the fuel ran out with the loop still going. *)
Fixpoint greet_loop (fuel : nat) (i : float) (steps : list pynum)
  : option (list pynum) :=
  match fuel with
  | O => None
  | S fuel' =>
      if fne i (fneg f1_0) then
        let i' := fsub i f0_2 in
        greet_loop fuel' i' (steps ++ [PyFloat i'])
      else Some steps
  end.

Definition greet (fuel : nat) : option (list cmd) :=
  match greet_loop fuel f1_0 [] with
  | None => None
  | Some steps =>
      Some (Log DEBUG (Text "Greeting user")
            :: with_motor "mouth" (fun m =>
                 run_motor m (PyFloat f0_05) steps)
            ++ with_motor "mouth" (fun m => [SetThrottle m (PyInt 0)]))
  end.

Definition reset_motors : list cmd :=
  Log DEBUG (Text "Resetting motor values to 0")
  :: map (fun item => SetThrottle (snd item) (PyFloat f0_0)) self_motor.

(** The ten floats the loop appends, as mantissa and exponent; the
    comment gives the shortest decimal that reads back as the float. *)
Definition sweep : list float :=
  [ S754_finite false 7205759403792794 (-53)    (*  0.8 *)
  ; S754_finite false 5404319552844596 (-53)    (*  0.6000000000000001 *)
  ; S754_finite false 7205759403792795 (-54)    (*  0.4000000000000001 *)
  ; S754_finite false 7205759403792796 (-55)    (*  0.20000000000000007 *)
  ; S754_finite false 4503599627370496 (-106)   (*  5.551115123125783e-17 *)
  ; S754_finite true 7205759403792792 (-55)     (* -0.19999999999999996 *)
  ; S754_finite true 7205759403792793 (-54)     (* -0.39999999999999997 *)
  ; S754_finite true 5404319552844595 (-53)     (* -0.6 *)
  ; S754_finite true 7205759403792794 (-53)     (* -0.8 *)
  ; S754_finite true 4503599627370496 (-52)     (* -1.0 *)
  ].

(** The commands of [greet] once its loop has ended. *)
Definition greet_cmds : list cmd :=
  Log DEBUG (Text "Greeting user")
  :: run_motor motor2 (PyFloat f0_05) (map PyFloat sweep)
  ++ [SetThrottle motor2 (PyInt 0)].

(** *** Reading a command list as a motion program *)

(** The hold that follows a write: the first sleep before the next write. *)
Fixpoint next_sleep (p : list cmd) : option pynum :=
  match p with
  | [] => None
  | Sleep d :: _ => Some d
  | Log _ _ :: p' => next_sleep p'
  | SetThrottle _ _ :: _ => None
  | Raise _ :: _ => None
  end.

(** The (axis, throttle, hold) steps of a command list. *)
Fixpoint steps_of (p : list cmd) : list (motor * pynum * option pynum) :=
  match p with
  | [] => []
  | SetThrottle m v :: p' => (m, v, next_sleep p') :: steps_of p'
  | _ :: p' => steps_of p'
  end.

(** The throttle values commanded to one motor, in order. *)
Definition throttles_of (m : motor) (p : list cmd) : list pynum :=
  flat_map (fun c => match c with
                     | SetThrottle m' v => if motor_eqb m m' then [v] else []
                     | _ => []
                     end) p.

Definition cmd_in_range (c : cmd) : bool :=
  match c with
  | SetThrottle _ v => in_range v
  | _ => true
  end.

End Motion.
Import Motion.

(** Python's [==] on two lists of numbers: same length, equal values. *)
Fixpoint same_values (xs ys : list pynum) : bool :=
  match xs, ys with
  | [], [] => true
  | x :: xs', y :: ys' => SFeqb (to_float x) (to_float y) && same_values xs' ys'
  | _, _ => false
  end.

(** The sweep as the specification words it: ten values going down from 1.0
    by 0.2, the last one -0.8. *)
Definition sweep_from_one : list pynum :=
  map (fun n => PyFloat (decimal n 10)) [10; 8; 6; 4; 2; 0; -2; -4; -6; -8]%Z.


(* ================================================================== *)
(** ** The two motors and sequential execution *)

Module Hardware.

(** What a thread can observe of the outside: the throttle last commanded
    to each motor, the commands carried out so far (oldest first), and the
    outcome of the actuator writes still to come ([Some e]: the write
    raises [e]; past the end of the list every write succeeds). *)
Record world := World {
  throttle1 : pynum;
  throttle2 : pynum;
  trace : list cmd;
  faults : list (option exn)
}.

Definition emit (c : cmd) (w : world) : world :=
  World (throttle1 w) (throttle2 w) (trace w ++ [c]) (faults w).

Definition write (m : motor) (v : pynum) (w : world) : world :=
  match m with
  | motor1 => World v (throttle2 w) (trace w) (faults w)
  | motor2 => World (throttle1 w) v (trace w) (faults w)
  end.

Definition next_fault (w : world) : option exn * world :=
  match faults w with
  | [] => (None, w)
  | o :: fs => (o, World (throttle1 w) (throttle2 w) (trace w) fs)
  end.

(** One command: the world after it and the exception it raised, if any.
    A write that raises changes no throttle and leaves no trace. *)
Definition exec_cmd (c : cmd) (w : world) : world * option exn :=
  match c with
  | SetThrottle m v =>
      match next_fault w with
      | (Some e, w') => (w', Some e)
      | (None, w') => (emit c (write m v w'), None)
      end
  | Sleep _ => (emit c w, None)
  | Log _ _ => (emit c w, None)
  | Raise e => (w, Some e)
  end.

(** A command list, up to the first exception. *)
Fixpoint exec_cmds (p : list cmd) (w : world) : world * option exn :=
  match p with
  | [] => (w, None)
  | c :: p' =>
      match exec_cmd c w with
      | (w', None) => exec_cmds p' w'
      | (w', Some e) => (w', Some e)
      end
  end.

Definition throttles (w : world) : pynum * pynum := (throttle1 w, throttle2 w).

End Hardware.
Import Hardware.

(* ================================================================== *)
(** ** The runner: object, context manager and background thread *)

Module Runner.

(** The bound methods [__enter__] can store in [self.exec]. *)
Inductive method :=
| m_greet | m_move_head | m_move_tail | m_move_mouth
| m_trigger | m_response | m_dance | m_reset_motors.

(** The commands of one call of a method; [None]: out of fuel. *)
Definition call (fuel : nat) (f : method) : option (list cmd) :=
  match f with
  | m_greet => greet fuel
  | m_move_head => Some move_head
  | m_move_tail => Some move_tail
  | m_move_mouth => Some move_mouth
  | m_trigger => Some trigger
  | m_response => Some response
  | m_dance => Some dance
  | m_reset_motors => Some reset_motors
  end.

(** The if/elif chain of [__enter__]. *)
Definition resolve (task : string) : option method :=
  if task =? "greet" then Some m_greet
  else if task =? "move_head" then Some m_move_head
  else if task =? "move_tail" then Some m_move_tail
  else if task =? "move_mouth" then Some m_move_mouth
  else if task =? "trigger" then Some m_trigger
  else if task =? "response" then Some m_response
  else if task =? "dance" then Some m_dance
  else if task =? "reset" then Some m_reset_motors
  else None.

(** The closed enumeration of task names. *)
Definition task_names : list string :=
  ["greet"; "move_head"; "move_tail"; "move_mouth";
   "trigger"; "response"; "dance"; "reset"].

(** The attributes of a [BillyBass] object that the code reads and writes
    ([self.motor] is [Motion.self_motor]). *)
Record BillyBass := Object {
  task : string;
  done : bool;
  exec : option method
}.

(** Where the background thread is. *)
Inductive thread :=
| Initial                 (* created; [start] not called yet *)
| Entry                   (* started; [run] has not logged yet *)
| LoopTest                (* at [while not self.done] *)
| Body (rest : list cmd)  (* in the loop body; [rest] is still to do *)
| Except (e : exn)        (* in the [except] clause, before [logger.error] *)
| Returned                (* [run] returned *)
| Propagated (e : exn)    (* [run] re-raised [e] *)
| OutOfFuel.              (* the model's fuel ran out inside [self.exec()] *)

Record system := System {
  self : BillyBass;
  bg : thread;
  hw : world
}.

Inductive outcome :=
| Returns
| Raises (e : exn).

Definition invalid_task : exn := ValueError "Task does not exist for billy bass".

(** [BillyBass(task)].  [MotorKit()] reaches for the hardware and may
    raise: [kit] is its outcome. *)
Definition __init__ (kit : option exn) (task : string) (w : world)
  : exn + system :=
  match kit with
  | Some e => inl e
  | None =>
      inr (System (Object task false None) Initial
                  (emit (Log INFO (Text "Billybass thread initialized")) w))
  end.

(** [Thread.start]: a thread starts once. *)
Definition start (s : system) : outcome * system :=
  match bg s with
  | Initial => (Returns, System (self s) Entry (hw s))
  | _ => (Raises (RuntimeError "threads can only be started once"), s)
  end.

Definition __enter__ (s : system) : outcome * system :=
  match resolve (task (self s)) with
  | None => (Raises invalid_task, s)
  | Some f =>
      start (System (Object (task (self s)) (done (self s)) (Some f))
                    (bg s)
                    (emit (Log DEBUG
                             (Text ("Task initialized (" ++ task (self s) ++ ")")))
                          (hw s)))
  end.

Definition stop (s : system) : outcome * system :=
  (Returns,
   System (Object (task (self s)) true (exec (self s)))
          (bg s)
          (emit (Log DEBUG (Text "Thread finished")) (hw s))).

Definition __exit__ (s : system) : outcome * system := stop s.

(** The pause between two runs of the action: [time.sleep(.2)]. *)
Definition pause : cmd := Sleep (PyFloat f0_2).

(** One step of the background thread, which runs
<<
    logger.debug("Executing")
    try:
        while not self.done:
            self.exec()
            time.sleep(.2)
    except Exception as e:
        logger.error(str(e))
        raise
>>
    A step is one primitive command, one test of the loop condition or
    one jump. *)
Definition bg_step (fuel : nat) (s : system) : system :=
  match bg s with
  | Initial | Returned | Propagated _ | OutOfFuel => s
  | Entry => System (self s) LoopTest (emit (Log DEBUG (Text "Executing")) (hw s))
  | LoopTest =>
      if done (self s) then System (self s) Returned (hw s)
      else
        match exec (self s) with
        | None =>
            System (self s)
                   (Except (AttributeError
                              "'BillyBass' object has no attribute 'exec'"))
                   (hw s)
        | Some f =>
            match call fuel f with
            | None => System (self s) OutOfFuel (hw s)
            | Some p => System (self s) (Body (p ++ [pause])) (hw s)
            end
        end
  | Body [] => System (self s) LoopTest (hw s)
  | Body (c :: rest) =>
      match exec_cmd c (hw s) with
      | (w, None) => System (self s) (Body rest) w
      | (w, Some e) => System (self s) (Except e) w
      end
  | Except e =>
      System (self s) (Propagated e) (emit (Log ERROR (StrOf e)) (hw s))
  end.

Fixpoint bg_steps (fuel : nat) (n : nat) (s : system) : system :=
  match n with
  | O => s
  | S n' => bg_steps fuel n' (bg_step fuel s)
  end.

(** The thread is over: [run] returned or died. *)
Definition terminated (t : thread) : bool :=
  match t with
  | Returned | Propagated _ => true
  | _ => false
  end.

(** The thread is started and not over. *)
Definition running (t : thread) : bool :=
  match t with
  | Entry | LoopTest | Body _ => true
  | _ => false
  end.

(** The commands left before the thread tests [self.done] again. *)
Definition in_progress (t : thread) : list cmd :=
  match t with
  | Entry => [Log DEBUG (Text "Executing")]
  | Body rest => rest
  | _ => []
  end.

(** What the foreground and the background do, in the order a scheduler
    picks. *)
Inductive tick := Fg_enter | Fg_exit | Fg_stop | Bg.

Definition sched_step (fuel : nat) (t : tick) (s : system) : system :=
  match t with
  | Fg_enter => snd (__enter__ s)
  | Fg_exit => snd (__exit__ s)
  | Fg_stop => snd (stop s)
  | Bg => bg_step fuel s
  end.

Definition run_schedule (fuel : nat) (sch : list tick) (s : system) : system :=
  fold_left (fun s t => sched_step fuel t s) sch s.

(** What holds of every system a schedule can reach: the commands carried
    out and the commands still to come in the loop body are in range. *)
Definition in_range_inv (s : system) : Prop :=
  forallb cmd_in_range (trace (hw s)) = true
  /\ forallb cmd_in_range (in_progress (bg s)) = true.

(** A world in which nothing has happened yet. *)
Definition fresh (t1 t2 : pynum) (fs : list (option exn)) : world :=
  World t1 t2 [] fs.

End Runner.
Import Runner.

(* ================================================================== *)
(** ** Scenarios *)

Module Scenario.

(** Motors at rest, nothing logged, no fault to come. *)
Definition calm : world := fresh (PyInt 0) (PyInt 0) [].

(** A runner as the constructor leaves it. *)
Definition constructed (t : string) (w : world) : system :=
  System (Object t false None) Initial
         (emit (Log INFO (Text "Billybass thread initialized")) w).

(** ["sing"] is not a task; ["dance"] is. *)
Definition sing_runner : system := constructed "sing" calm.
Definition dance_runner : system := constructed "dance" calm.
Definition reset_runner : system := constructed "reset" calm.
Definition mouth_runner : system := constructed "move_mouth" calm.

(** A mouth runner that was entered, ran one whole iteration, was stopped
    and came to its end. *)
Definition stopped_runner : system :=
  run_schedule 11 (Fg_enter :: repeat Bg 14 ++ Fg_exit :: repeat Bg 3)
               mouth_runner.

(** A mouth runner in the middle of its first iteration. *)
Definition busy_runner : system :=
  run_schedule 11 [Fg_enter; Bg; Bg; Bg; Bg; Bg] mouth_runner.

(** The same with a motor that fails on the second write. *)
Definition failing_runner : system :=
  run_schedule 11 [Fg_enter; Bg; Bg; Bg; Bg; Bg; Bg; Bg]
               (constructed "move_mouth"
                  (fresh (PyInt 0) (PyInt 0)
                         [None; Some (Exn "OSError" "[Errno 121] Remote I/O error")])).

End Scenario.
Import Scenario.

(* ================================================================== *)
(** ** Reading worlds, traces and schedules *)

Module Observe.



(** The value a motor holds once the commands [p] have been carried out,
    when it held [prior] before: the last one commanded, if any. *)
Definition last_commanded (m : motor) (prior : pynum) (p : list cmd) : pynum :=
  last (throttles_of m p) prior.

(** A command that is not a [KeyError] in waiting. *)
Definition raises_nothing (c : cmd) : bool :=
  match c with
  | Raise _ => false
  | _ => true
  end.

(** What one step of [run_motor] issues. *)
Definition one_step (m : motor) (sensitivity : pynum) (step : pynum) : list cmd :=
  SetThrottle m step :: release_motor sensitivity.

(** One iteration of the loop of [run]: the action, then the pause. *)
Definition iteration (p : list cmd) : list cmd := p ++ [pause].

(** A tick that is neither [stop] nor [__exit__]. *)
Definition no_stop (t : tick) : bool :=
  match t with
  | Fg_enter | Bg => true
  | Fg_exit | Fg_stop => false
  end.

(** Where one call of a method leaves the body motor and the mouth motor;
    [None]: the method does not write that motor. *)
Definition rest_position (f : method) : option pynum * option pynum :=
  match f with
  | m_greet => (None, Some (PyInt 0))
  | m_move_head => (Some (PyFloat (fneg f1_0)), None)
  | m_move_tail => (Some (PyFloat f0_0), None)
  | m_move_mouth => (None, Some (PyFloat f0_0))
  | m_trigger => (Some (PyFloat (fneg f1_0)), Some (PyFloat f0_0))
  | m_response => (None, Some (PyFloat f0_0))
  | m_dance => (Some (PyFloat f0_0), None)
  | m_reset_motors => (Some (PyFloat f0_0), Some (PyFloat f0_0))
  end.

Definition or_prior (o : option pynum) (prior : pynum) : pynum :=
  match o with
  | Some v => v
  | None => prior
  end.

(** The thread has not called [self.exec] and, with the flag set, will not. *)
Definition before_first_call (t : thread) : bool :=
  match t with
  | Initial | Entry | LoopTest | Returned => true
  | _ => false
  end.

(** A runner nobody has stopped, on motors that do not fail. *)
Definition unstopped (s : system) : Prop :=
  done (self s) = false
  /\ faults (hw s) = []
  /\ forallb raises_nothing (in_progress (bg s)) = true
  /\ (bg s = Initial \/ (running (bg s) = true /\ exec (self s) <> None)).

(** [Thread.start] called on a fresh object, without [__enter__]. *)
Definition started_directly (t : string) (w : world) : system :=
  snd (start (constructed t w)).

End Observe.
Import Observe.

(* ================================================================== *)
(** ** The float literals *)

(** [.2], [0.1] and [0.05] share the mantissa 0x1999999999999A. *)
Lemma literal_bits :
  f0_2 = S754_finite false 7205759403792794 (-55)
  /\ f0_1 = S754_finite false 7205759403792794 (-56)
  /\ f0_05 = S754_finite false 7205759403792794 (-57)
  /\ f1_0 = S754_finite false 4503599627370496 (-52)
  /\ f0_0 = S754_zero false.
Proof. vm_compute. repeat split; reflexivity. Qed.

(** Each is within half a unit in the last place of the decimal it is
    written as: [|m * 2^e - 1/d| <= 2^e / 2], cleared of denominators. *)
Lemma literal_nearest :
  (2 * Z.abs (5 * 7205759403792794 - 2 ^ 55) <= 5)%Z
  /\ (2 * Z.abs (10 * 7205759403792794 - 2 ^ 56) <= 10)%Z
  /\ (2 * Z.abs (20 * 7205759403792794 - 2 ^ 57) <= 20)%Z.
Proof. vm_compute. repeat split; discriminate. Qed.

(* ================================================================== *)
(** ** The loop of [greet] *)

Section GreetLoop.

(** More fuel does not change the result of a loop that has ended. *)
Lemma greet_loop_more_fuel (fuel : nat) :
  forall i steps r,
    greet_loop fuel i steps = Some r ->
    forall k, greet_loop (fuel + k) i steps = Some r.
Proof.
  induction fuel as [|fuel IH]; intros i steps r H k.
  - discriminate H.
  - cbn [greet_loop Nat.add] in *. destruct (fne i (fneg f1_0)).
    + now apply IH.
    + exact H.
Qed.

(** [sweep] is 1.0 - .2, 1.0 - .2 - .2, ... and ends on -1.0 exactly. *)
Lemma sweep_by_subtraction :
  sweep = map (fun k => Nat.iter k (fun x => fsub x f0_2) f1_0) (seq 1 10).
Proof. vm_compute. reflexivity. Qed.

Lemma sweep_ends : hd_error sweep = Some (decimal 8 10)
                   /\ last sweep f0_0 = fneg f1_0.
Proof. vm_compute. split; reflexivity. Qed.

Lemma greet_loop_11 : greet_loop 11 f1_0 [] = Some (map PyFloat sweep).
Proof. vm_compute. reflexivity. Qed.

Lemma greet_loop_10 : greet_loop 10 f1_0 [] = None.
Proof. vm_compute. reflexivity. Qed.

Lemma greet_loop_enough (fuel : nat) :
  (11 <= fuel)%nat -> greet_loop fuel f1_0 [] = Some (map PyFloat sweep).
Proof.
  intro H. replace fuel with (11 + (fuel - 11))%nat by lia.
  apply greet_loop_more_fuel. exact greet_loop_11.
Qed.

(** Whatever the fuel, the loop has one possible result. *)
Lemma greet_loop_result (fuel : nat) (r : list pynum) :
  greet_loop fuel f1_0 [] = Some r -> r = map PyFloat sweep.
Proof.
  intro H. apply greet_loop_more_fuel with (k := 11%nat) in H.
  rewrite greet_loop_enough in H by lia. now injection H.
Qed.

Lemma greet_enough (fuel : nat) :
  (11 <= fuel)%nat -> greet fuel = Some greet_cmds.
Proof.
  intro H. unfold greet. rewrite greet_loop_enough by exact H. reflexivity.
Qed.

Lemma greet_result (fuel : nat) (p : list cmd) :
  greet fuel = Some p -> p = greet_cmds.
Proof.
  unfold greet. destruct (greet_loop fuel f1_0 []) as [r|] eqn:E; [|discriminate].
  apply greet_loop_result in E. subst r. intro H. now injection H.
Qed.

End GreetLoop.

(** C1, as stated, does not hold: no run of [greet] commands the mouth the
    values 1.0, 0.8, ..., -0.8 and then 0.  The code subtracts before it
    appends, so 1.0 is never commanded and -1.0 is. *)
Lemma greet_sweep_not_from_one :
  ~ exists fuel p,
      greet fuel = Some p
      /\ same_values (throttles_of motor2 p) (sweep_from_one ++ [PyInt 0]) = true.
Proof.
  intros (fuel & p & Hp & Hv). apply greet_result in Hp. subst p.
  vm_compute in Hv. discriminate Hv.
Qed.

(** C1, amended: one run of [greet] commands the mouth motor, and only it,
    the ten floats 1.0 - .2, 1.0 - .2 - .2, ... down to -1.0 itself (0.8,
    0.6000000000000001, 0.4000000000000001, 0.20000000000000007,
    5.551115123125783e-17, -0.19999999999999996, -0.39999999999999997, -0.6,
    -0.8, -1.0), each followed by a hold of 0.05 s, and then the integer 0
    with no hold. *)
Theorem greet_sweep (fuel : nat) :
  (11 <= fuel)%nat ->
  exists p,
    greet fuel = Some p
    /\ steps_of p
       = map (fun v => (motor2, PyFloat v, Some (PyFloat f0_05))) sweep
         ++ [(motor2, PyInt 0, None)]
    /\ forallb (fun st => match snd st with
                          | Some d => at_least f0_05 d
                          | None => false
                          end) (firstn 10 (steps_of p)) = true
    /\ throttles_of motor2 p = map PyFloat sweep ++ [PyInt 0]
    /\ throttles_of motor1 p = []
    /\ sweep = map (fun k => Nat.iter k (fun x => fsub x f0_2) f1_0) (seq 1 10).
Proof.
  intro H. exists greet_cmds. split; [now apply greet_enough|].
  repeat split; try exact sweep_by_subtraction; vm_compute; reflexivity.
Qed.

Lemma greet_sweep_witness :
  (11 <= 11)%nat
  /\ exists p,
       greet 11 = Some p
       /\ steps_of p
          = map (fun v => (motor2, PyFloat v, Some (PyFloat f0_05))) sweep
            ++ [(motor2, PyInt 0, None)]
       /\ forallb (fun st => match snd st with
                             | Some d => at_least f0_05 d
                             | None => false
                             end) (firstn 10 (steps_of p)) = true
       /\ throttles_of motor2 p = map PyFloat sweep ++ [PyInt 0]
       /\ throttles_of motor1 p = []
       /\ sweep = map (fun k => Nat.iter k (fun x => fsub x f0_2) f1_0) (seq 1 10).
Proof. split; [apply le_n | apply (greet_sweep 11); apply le_n]. Defined.


(* ================================================================== *)
(** ** Sequential execution *)

Lemma exec_cmd_raises (c : cmd) (w w' : world) (e : exn) :
  exec_cmd c w = (w', Some e) ->
  trace w' = trace w /\ throttles w' = throttles w.
Proof.
  destruct c as [m v| d | l msg | e']; cbn [exec_cmd]; try discriminate.
  - unfold next_fault. destruct (faults w) as [|[e'|] fs]; try discriminate.
    intro H. injection H as <- _. split; reflexivity.
  - intro H. injection H as <- _. split; reflexivity.
Qed.

Lemma exec_cmd_returns (c : cmd) (w w' : world) :
  exec_cmd c w = (w', None) -> trace w' = trace w ++ [c].
Proof.
  destruct c as [m v| d | l msg | e']; cbn [exec_cmd]; try discriminate.
  - unfold next_fault. destruct (faults w) as [|[e'|] fs]; try discriminate;
      intro H; injection H as <-; destruct m; reflexivity.
  - intro H. injection H as <-. reflexivity.
  - intro H. injection H as <-. reflexivity.
Qed.

(** A list that ran to its end left every command in the trace, in order. *)
Lemma exec_cmds_returns (p : list cmd) :
  forall w w', exec_cmds p w = (w', None) -> trace w' = trace w ++ p.
Proof.
  induction p as [|c p IH]; intros w w' H; cbn [exec_cmds] in H.
  - injection H as <-. now rewrite app_nil_r.
  - destruct (exec_cmd c w) as [w1 [e|]] eqn:E; [discriminate|].
    apply exec_cmd_returns in E. apply IH in H. rewrite H, E.
    now rewrite <- app_assoc.
Qed.

(** With or without an exception, what ran is a prefix of the list. *)
Lemma exec_cmds_prefix (p : list cmd) :
  forall w, exists q r,
    p = q ++ r /\ trace (fst (exec_cmds p w)) = trace w ++ q.
Proof.
  induction p as [|c p IH]; intro w; cbn [exec_cmds].
  - exists [], []. split; [reflexivity | now rewrite app_nil_r].
  - destruct (exec_cmd c w) as [w1 [e|]] eqn:E.
    + exists [], (c :: p). apply exec_cmd_raises in E as [E _].
      split; [reflexivity | cbn [fst]; now rewrite app_nil_r].
    + destruct (IH w1) as (q & r & -> & Hq). exists (c :: q), r.
      split; [reflexivity|]. apply exec_cmd_returns in E.
      rewrite Hq, E. now rewrite <- app_assoc.
Qed.

(* ================================================================== *)
(** ** The methods one by one *)

Lemma resolve_names (t : string) :
  resolve t <> None <-> In t task_names.
Proof.
  unfold resolve, task_names. cbn [In].
  repeat match goal with
         | |- context [String.eqb t ?k] =>
             destruct (String.eqb_spec t k) as [->|]
         end;
    split; intro H; try discriminate; try congruence; auto 10;
    try (exfalso; intuition congruence).
Qed.

(** Every method commands throttles between -1.0 and 1.0. *)
Lemma call_in_range (fuel : nat) (f : method) (p : list cmd) :
  call fuel f = Some p -> forallb cmd_in_range p = true.
Proof.
  destruct f; cbn [call]; intro H;
    try (injection H as <-; vm_compute; reflexivity).
  apply greet_result in H. subst p. vm_compute. reflexivity.
Qed.

(** With fuel for eleven tests of the loop condition, every method returns
    its commands, the same whatever the fuel. *)
Lemma call_enough (fuel : nat) (f : method) :
  (11 <= fuel)%nat -> call fuel f = call 11 f.
Proof.
  intro H. destruct f; cbn [call]; try reflexivity.
  now rewrite !greet_enough by (exact H || apply le_n).
Qed.

(** C2: for every valid task, one call of the method [__enter__] resolved
    returns after finitely many actuator writes (eleven at most): with fuel
    for eleven tests of its condition the loop of [greet] ends with a list
    of ten steps, the method then issues a finite list of commands, and
    running them from any state of the motors carries out a prefix of that
    list and stops. *)
Theorem action_terminates (t : string) (f : method) (fuel : nat) :
  resolve t = Some f ->
  (11 <= fuel)%nat ->
  (exists steps, greet_loop fuel f1_0 [] = Some steps /\ List.length steps = 10%nat)
  /\ exists p,
       call fuel f = Some p
       /\ (List.length (steps_of p) <= 11)%nat
       /\ forall w, exists q r,
            p = q ++ r /\ trace (fst (exec_cmds p w)) = trace w ++ q.
Proof.
  intros _ Hfuel. split.
  - exists (map PyFloat sweep). split; [now apply greet_loop_enough | reflexivity].
  - rewrite (call_enough fuel f Hfuel).
    destruct f; cbn [call]; try rewrite (greet_enough 11 (le_n 11));
      eexists; (split; [reflexivity|]);
      (split; [vm_compute; lia | intro w; apply exec_cmds_prefix]).
Qed.

Lemma action_terminates_witness :
  resolve "greet" = Some m_greet
  /\ (11 <= 11)%nat
  /\ (exists steps, greet_loop 11 f1_0 [] = Some steps /\ List.length steps = 10%nat)
  /\ exists p,
       call 11 m_greet = Some p
       /\ (List.length (steps_of p) <= 11)%nat
       /\ forall w, exists q r,
            p = q ++ r /\ trace (fst (exec_cmds p w)) = trace w ++ q.
Proof.
  split; [reflexivity|]. split; [apply le_n|].
  apply (action_terminates "greet" m_greet 11); [reflexivity | apply le_n].
Defined.

(* ================================================================== *)
(** ** Construction and activation *)

(** Logging changes no motion step. *)
Lemma steps_of_log (tr : list cmd) (l : level) (msg : message) :
  steps_of (tr ++ [Log l msg]) = steps_of tr.
Proof.
  induction tr as [|[m v| d | l' msg' | e] tr IH];
    cbn [steps_of app]; try exact IH; try reflexivity.
  f_equal; [|exact IH]. f_equal. clear IH.
  induction tr as [|[m' v'| d' | l' msg' | e'] tr IH];
    cbn [next_sleep app]; try exact IH; reflexivity.
Qed.

Lemma enter_unresolved (s : system) :
  resolve (task (self s)) = None -> __enter__ s = (Raises invalid_task, s).
Proof. unfold __enter__. now intros ->. Qed.

Lemma enter_resolved (s : system) (f : method) :
  resolve (task (self s)) = Some f ->
  bg s = Initial ->
  __enter__ s
  = (Returns,
     System (Object (task (self s)) (done (self s)) (Some f)) Entry
            (emit (Log DEBUG (Text ("Task initialized (" ++ task (self s) ++ ")")))
                  (hw s))).
Proof. unfold __enter__, start. intros -> H. cbn [bg]. now rewrite H. Qed.

(** C3: [__enter__] on a task outside the eight names raises the
    invalid-task error at once and leaves the whole system as it was: the
    thread is not started and the world (throttles and trace) is untouched.
    On a task among the eight names it does not raise that error, and on a
    thread that was not started before it returns with the thread started
    and no actuator write made. *)
Theorem enter_validates_task (s : system) :
  (~ In (task (self s)) task_names ->
     __enter__ s = (Raises invalid_task, s))
  /\ (In (task (self s)) task_names ->
        fst (__enter__ s) <> Raises invalid_task
        /\ (bg s = Initial ->
              fst (__enter__ s) = Returns
              /\ bg (snd (__enter__ s)) = Entry
              /\ steps_of (trace (hw (snd (__enter__ s))))
                 = steps_of (trace (hw s)))).
Proof.
  split; intro H.
  - apply enter_unresolved.
    destruct (resolve (task (self s))) eqn:E; [|reflexivity].
    exfalso. apply H, resolve_names. congruence.
  - apply resolve_names in H.
    destruct (resolve (task (self s))) as [f|] eqn:E; [|congruence]. split.
    + unfold __enter__, start. rewrite E. cbn [bg].
      destruct (bg s); cbn [fst]; discriminate.
    + intro Hbg. rewrite (enter_resolved s f E Hbg). cbn [fst snd bg hw].
      repeat split. apply steps_of_log.
Qed.

Lemma enter_validates_task_witness :
  (~ In (task (self sing_runner)) task_names
   /\ __enter__ sing_runner = (Raises invalid_task, sing_runner))
  /\ (In (task (self dance_runner)) task_names
      /\ bg dance_runner = Initial
      /\ fst (__enter__ dance_runner) = Returns
      /\ bg (snd (__enter__ dance_runner)) = Entry).
Proof.
  assert (Hsing : ~ In (task (self sing_runner)) task_names).
  { cbn. intros [H|[H|[H|[H|[H|[H|[H|[H|[]]]]]]]]]; discriminate H. }
  assert (Hdance : In (task (self dance_runner)) task_names).
  { cbn. do 6 right. left. reflexivity. }
  split.
  - split; [exact Hsing|].
    exact (proj1 (enter_validates_task sing_runner) Hsing).
  - split; [exact Hdance|]. split; [reflexivity|].
    destruct (proj2 (enter_validates_task dance_runner) Hdance) as [_ H].
    destruct (H eq_refl) as (H1 & H2 & _). split; [exact H1 | exact H2].
Defined.

(** C10: the constructor does not look at the task.  Whatever the task
    string, if [MotorKit()] raises, the constructor raises that same
    exception, and otherwise it returns an object that holds the task, with
    no method resolved, the thread not started and no actuator write made;
    for a task outside the eight names the invalid-task error comes only
    from [__enter__] on that object. *)
Theorem init_does_not_validate (t : string) (w : world) :
  (forall e, __init__ (Some e) t w = inl e)
  /\ exists s,
       __init__ None t w = inr s
       /\ task (self s) = t
       /\ exec (self s) = None
       /\ done (self s) = false
       /\ bg s = Initial
       /\ steps_of (trace (hw s)) = steps_of (trace w)
       /\ (~ In t task_names -> __enter__ s = (Raises invalid_task, s)).
Proof.
  split; [reflexivity|]. exists (constructed t w). split; [reflexivity|].
  cbn [constructed self task exec done bg hw]. repeat split.
  - apply steps_of_log.
  - intro H. apply enter_unresolved. change (resolve t = None).
    destruct (resolve t) eqn:E; [|reflexivity].
    exfalso. apply H, resolve_names. congruence.
Qed.

Lemma init_does_not_validate_witness :
  ~ In "sing" task_names
  /\ __init__ None "sing" calm = inr sing_runner
  /\ __enter__ sing_runner = (Raises invalid_task, sing_runner).
Proof.
  assert (Hsing : ~ In "sing" task_names).
  { cbn. intros [H|[H|[H|[H|[H|[H|[H|[H|[]]]]]]]]]; discriminate H. }
  split; [exact Hsing|]. split; [reflexivity|].
  destruct (init_does_not_validate "sing" calm) as [_ (s & Hs & _ & _ & _ & _ & _ & H)].
  injection Hs as <-. exact (H Hsing).
Defined.

(* ================================================================== *)
(** ** The background thread *)

Section Thread.

Variable fuel : nat.

Lemma bg_steps_add (n m : nat) :
  forall s, bg_steps fuel (n + m) s = bg_steps fuel m (bg_steps fuel n s).
Proof. induction n as [|n IH]; intro s; cbn [bg_steps Nat.add]; auto. Qed.

(** A thread that is over takes no further step. *)
Lemma terminated_stays (s : system) (n : nat) :
  terminated (bg s) = true -> bg_steps fuel n s = s.
Proof.
  intro H. induction n as [|n IH]; [reflexivity|]. cbn [bg_steps].
  replace (bg_step fuel s) with s; [exact IH|].
  unfold bg_step. destruct (bg s); try discriminate H; reflexivity.
Qed.

Lemma terminated_from (s s' : system) (k n : nat) :
  bg_steps fuel k s = s' -> terminated (bg s') = true -> (k <= n)%nat ->
  bg_steps fuel n s = s'.
Proof.
  intros Hk Ht Hle. replace n with (k + (n - k))%nat by lia.
  rewrite bg_steps_add, Hk. now apply terminated_stays.
Qed.

(** The rest of a loop body runs command by command to its end ... *)
Lemma body_returns (rest : list cmd) :
  forall slf w w',
    exec_cmds rest w = (w', None) ->
    bg_steps fuel (List.length rest) (System slf (Body rest) w)
    = System slf (Body []) w'.
Proof.
  induction rest as [|c rest IH]; intros slf w w' H; cbn [exec_cmds] in H.
  - injection H as <-. reflexivity.
  - destruct (exec_cmd c w) as [w1 [e|]] eqn:E; [discriminate|].
    cbn [List.length bg_steps]. unfold bg_step. cbn [bg hw self].
    rewrite E. now apply IH.
Qed.

(** ... or up to the command that raises. *)
Lemma body_raises (rest : list cmd) :
  forall slf w w' e,
    exec_cmds rest w = (w', Some e) ->
    exists k, (k < List.length rest)%nat
              /\ bg_steps fuel (S k) (System slf (Body rest) w)
                 = System slf (Except e) w'.
Proof.
  induction rest as [|c rest IH]; intros slf w w' e H; cbn [exec_cmds] in H.
  - discriminate H.
  - destruct (exec_cmd c w) as [w1 [e1|]] eqn:E.
    + injection H as <- <-. exists 0%nat. split; [cbn; lia|].
      cbn [bg_steps]. unfold bg_step. cbn [bg hw self]. now rewrite E.
    + destruct (IH slf w1 w' e H) as (k & Hk & Hrun). exists (S k).
      split; [cbn; lia|]. cbn [bg_steps] in *. unfold bg_step at 2.
      cbn [bg hw self]. rewrite E. exact Hrun.
Qed.

(** Once [done] is set, a running thread carries out what is left before
    the next test of the loop condition and ends: by returning, or by
    re-raising what a command raised after logging it. *)
Lemma done_finishes (slf : BillyBass) (t : thread) (w : world) (n : nat) :
  done slf = true ->
  running t = true ->
  (List.length (in_progress t) + 2 <= n)%nat ->
  bg_steps fuel n (System slf t w)
  = match exec_cmds (in_progress t) w with
    | (w', None) => System slf Returned w'
    | (w', Some e) => System slf (Propagated e) (emit (Log ERROR (StrOf e)) w')
    end.
Proof.
  intros Hdone Hrun Hn. destruct t; try discriminate Hrun; cbn [in_progress] in *.
  - (* Entry *)
    cbn [exec_cmds exec_cmd]. apply terminated_from with (k := 2%nat);
      [|reflexivity|cbn in Hn; lia].
    cbn [bg_steps]. unfold bg_step. cbn [bg self hw]. now rewrite Hdone.
  - (* LoopTest *)
    cbn [exec_cmds]. apply terminated_from with (k := 1%nat);
      [|reflexivity|lia].
    cbn [bg_steps]. unfold bg_step. cbn [bg self hw]. now rewrite Hdone.
  - (* Body *)
    destruct (exec_cmds rest w) as [w' [e|]] eqn:E.
    + destruct (body_raises rest slf w w' e E) as (k & Hk & Hsteps).
      apply terminated_from with (k := (S k + 1)%nat); [|reflexivity|lia].
      rewrite bg_steps_add, Hsteps. reflexivity.
    + apply terminated_from with (k := (List.length rest + 2)%nat);
        [|reflexivity|lia].
      rewrite bg_steps_add, (body_returns rest slf w w' E).
      cbn [bg_steps]. unfold bg_step. cbn [bg self hw]. now rewrite Hdone.
Qed.

End Thread.

Lemma stop_spec (s : system) :
  stop s
  = (Returns,
     System (Object (task (self s)) true (exec (self s))) (bg s)
            (emit (Log DEBUG (Text "Thread finished")) (hw s))).
Proof. reflexivity. Qed.

(* ================================================================== *)
(** ** Stopping *)

(** C7: [stop] may come at any point of a running thread.  From there the
    thread carries out every command that is left of the iteration in
    progress, in order and with every sleep, then tests [self.done], finds
    it set and returns; however many steps it is given afterwards, the
    world stays as it was at the end of that iteration: no further
    iteration and no further command. *)
Theorem stop_is_cooperative (fuel : nat) (s0 : system) (w' : world) (n : nat) :
  running (bg s0) = true ->
  exec_cmds (in_progress (bg s0)) (hw (snd (stop s0))) = (w', None) ->
  (List.length (in_progress (bg s0)) + 2 <= n)%nat ->
  bg_steps fuel n (snd (stop s0)) = System (self (snd (stop s0))) Returned w'
  /\ trace w'
     = trace (hw s0) ++ Log DEBUG (Text "Thread finished") :: in_progress (bg s0).
Proof.
  intros Hrun Hexec Hn. rewrite stop_spec in *. cbn [snd self hw] in *. split.
  - rewrite (done_finishes fuel (Object (task (self s0)) true (exec (self s0)))
                           (bg s0) _ n eq_refl Hrun Hn).
    now rewrite Hexec.
  - apply exec_cmds_returns in Hexec. rewrite Hexec. cbn [emit trace].
    now rewrite <- app_assoc.
Qed.

Lemma stop_is_cooperative_witness :
  running (bg busy_runner) = true
  /\ (List.length (in_progress (bg busy_runner)) + 2 <= 11)%nat
  /\ bg (bg_steps 11 11 (snd (stop busy_runner))) = Returned
  /\ throttles_of motor2 (trace (hw (bg_steps 11 11 (snd (stop busy_runner)))))
     = [PyInt 1; PyFloat (fneg f1_0); PyFloat f0_0].
Proof.
  assert (Hrun : running (bg busy_runner) = true) by reflexivity.
  assert (Hn : (List.length (in_progress (bg busy_runner)) + 2 <= 11)%nat)
    by (vm_compute; repeat constructor).
  assert (Hexec : exec_cmds (in_progress (bg busy_runner))
                            (hw (snd (stop busy_runner)))
                  = (fst (exec_cmds (in_progress (bg busy_runner))
                                    (hw (snd (stop busy_runner)))), None))
    by (vm_compute; reflexivity).
  destruct (stop_is_cooperative 11 busy_runner _ 11 Hrun Hexec Hn)
    as [Hsteps Htrace].
  split; [exact Hrun|]. split; [exact Hn|].
  rewrite Hsteps. cbn [bg hw]. split; [reflexivity|].
  rewrite Htrace. vm_compute. reflexivity.
Defined.

(** C8: when a command of the action raises, the thread logs the error,
    re-raises it and is over.  The command that raised is not tried again:
    whatever number of steps follows, the trace is what had been carried
    out, then the error record, and the throttles are those of the moment
    of the exception. *)
Theorem error_logged_and_reraised
        (fuel : nat) (slf : BillyBass) (rest : list cmd) (w w' : world)
        (e : exn) (n : nat) :
  exec_cmds rest w = (w', Some e) ->
  (List.length rest + 1 <= n)%nat ->
  bg_steps fuel n (System slf (Body rest) w)
  = System slf (Propagated e) (emit (Log ERROR (StrOf e)) w')
  /\ throttles (emit (Log ERROR (StrOf e)) w') = throttles w'
  /\ steps_of (trace (emit (Log ERROR (StrOf e)) w')) = steps_of (trace w')
  /\ exists q r, rest = q ++ r
                 /\ trace (emit (Log ERROR (StrOf e)) w')
                    = trace w ++ q ++ [Log ERROR (StrOf e)].
Proof.
  intros Hexec Hn. split; [|split; [reflexivity|split]].
  - destruct (body_raises fuel rest slf w w' e Hexec) as (k & Hk & Hsteps).
    apply terminated_from with (k := (S k + 1)%nat); [|reflexivity|lia].
    rewrite bg_steps_add, Hsteps. reflexivity.
  - apply steps_of_log.
  - destruct (exec_cmds_prefix rest w) as (q & r & Hsplit & Htrace).
    rewrite Hexec in Htrace. cbn [fst] in Htrace. exists q, r.
    split; [exact Hsplit|]. cbn [emit trace]. rewrite Htrace.
    now rewrite <- app_assoc.
Qed.

Lemma error_logged_and_reraised_witness :
  bg failing_runner
  = Body [SetThrottle motor2 (PyFloat (fneg f1_0));
          Log DEBUG (ReleasingMotor (PyFloat f0_1)); Sleep (PyFloat f0_1);
          SetThrottle motor2 (PyFloat f0_0);
          Log DEBUG (ReleasingMotor (PyFloat f0_1)); Sleep (PyFloat f0_1);
          pause]
  /\ bg (bg_steps 11 8 failing_runner)
     = Propagated (Exn "OSError" "[Errno 121] Remote I/O error")
  /\ throttles (hw (bg_steps 11 8 failing_runner)) = (PyInt 0, PyInt 1).
Proof.
  assert (Hbody : bg failing_runner = Body (in_progress (bg failing_runner)))
    by (vm_compute; reflexivity).
  assert (Hexec : exec_cmds (in_progress (bg failing_runner)) (hw failing_runner)
                  = (fst (exec_cmds (in_progress (bg failing_runner))
                                    (hw failing_runner)),
                     Some (Exn "OSError" "[Errno 121] Remote I/O error")))
    by (vm_compute; reflexivity).
  assert (Hn : (List.length (in_progress (bg failing_runner)) + 1 <= 8)%nat)
    by (vm_compute; repeat constructor).
  destruct (error_logged_and_reraised 11 (self failing_runner) _ _ _ _ 8 Hexec Hn)
    as [Hsteps _].
  split; [vm_compute; reflexivity|].
  replace failing_runner
    with (System (self failing_runner) (Body (in_progress (bg failing_runner)))
                 (hw failing_runner)) at 1 2
    by (vm_compute; reflexivity).
  rewrite Hsteps. cbn [bg hw]. split; [reflexivity | vm_compute; reflexivity].
Defined.

(** C9: [stop] on a runner whose thread is over and whose flag is set
    returns without raising and changes neither the object (the flag stays
    set), nor the thread, nor the throttles, and commands nothing; it only
    leaves its debug record in the log. *)
Theorem stop_again_is_noop (s : system) :
  terminated (bg s) = true ->
  done (self s) = true ->
  fst (stop s) = Returns
  /\ self (snd (stop s)) = self s
  /\ done (self (snd (stop s))) = true
  /\ bg (snd (stop s)) = bg s
  /\ throttles (hw (snd (stop s))) = throttles (hw s)
  /\ steps_of (trace (hw (snd (stop s)))) = steps_of (trace (hw s))
  /\ forall fuel n, bg_steps fuel n (snd (stop s)) = snd (stop s).
Proof.
  intros Hterm Hdone. rewrite stop_spec. cbn [fst snd self bg hw done].
  repeat split.
  - destruct (self s) as [t d x]. cbn in *. now subst d.
  - apply steps_of_log.
  - intros fuel n. now apply terminated_stays.
Qed.

Lemma stop_again_is_noop_witness :
  terminated (bg stopped_runner) = true
  /\ done (self stopped_runner) = true
  /\ fst (stop stopped_runner) = Returns
  /\ self (snd (stop stopped_runner)) = self stopped_runner.
Proof.
  assert (Hterm : terminated (bg stopped_runner) = true) by reflexivity.
  assert (Hdone : done (self stopped_runner) = true) by reflexivity.
  destruct (stop_again_is_noop stopped_runner Hterm Hdone) as (H1 & H2 & _).
  repeat split; assumption.
Defined.

(** C5, as stated, does not hold.  A mouth runner is in the middle of its
    first iteration, having commanded the mouth once.  [__exit__] returns;
    the thread is not over, and it goes on to command the mouth twice more. *)
Lemma exit_returns_before_thread_ends :
  fst (__exit__ busy_runner) = Returns
  /\ terminated (bg (snd (__exit__ busy_runner))) = false
  /\ throttles_of motor2 (trace (hw (snd (__exit__ busy_runner)))) = [PyInt 1]
  /\ throttles_of motor2
       (trace (hw (bg_steps 11 11 (snd (__exit__ busy_runner)))))
     = [PyInt 1; PyFloat (fneg f1_0); PyFloat f0_0].
Proof. vm_compute. repeat split; reflexivity. Qed.

(** C5, amended: [__exit__] is [stop]; it sets the flag and returns at once
    without waiting for the thread, which is where it was; no throttle is
    written.  A running thread then ends by itself once it has been given
    the steps for what is left of its iteration and two more. *)
Theorem exit_only_sets_flag (fuel : nat) (s : system) :
  __exit__ s = stop s
  /\ fst (__exit__ s) = Returns
  /\ done (self (snd (__exit__ s))) = true
  /\ bg (snd (__exit__ s)) = bg s
  /\ throttles (hw (snd (__exit__ s))) = throttles (hw s)
  /\ steps_of (trace (hw (snd (__exit__ s)))) = steps_of (trace (hw s))
  /\ (running (bg s) = true ->
      forall n, (List.length (in_progress (bg s)) + 2 <= n)%nat ->
                terminated (bg (bg_steps fuel n (snd (__exit__ s)))) = true).
Proof.
  unfold __exit__. rewrite stop_spec. cbn [fst snd self bg hw done].
  repeat split.
  - apply steps_of_log.
  - intros Hrun n Hn.
    rewrite (done_finishes fuel (Object (task (self s)) true (exec (self s)))
                           (bg s) _ n eq_refl Hrun Hn).
    now destruct (exec_cmds _ _) as [w' [e|]].
Qed.

Lemma exit_only_sets_flag_witness :
  running (bg busy_runner) = true
  /\ (List.length (in_progress (bg busy_runner)) + 2 <= 11)%nat
  /\ terminated (bg (bg_steps 11 11 (snd (__exit__ busy_runner)))) = true.
Proof.
  assert (Hrun : running (bg busy_runner) = true) by reflexivity.
  assert (Hn : (List.length (in_progress (bg busy_runner)) + 2 <= 11)%nat)
    by (vm_compute; repeat constructor).
  destruct (exit_only_sets_flag 11 busy_runner) as (_ & _ & _ & _ & _ & _ & H).
  split; [exact Hrun|]. split; [exact Hn|]. exact (H Hrun 11%nat Hn).
Defined.

(* ================================================================== *)
(** ** The task [reset] *)

(** C4, as stated, does not hold.  A reset runner is entered and its thread
    is given twelve steps with no stop: it has run [reset_motors] twice,
    writing each motor twice, and is still running. *)
Lemma reset_is_repeated :
  throttles_of motor1
    (trace (hw (run_schedule 11 (Fg_enter :: repeat Bg 12) reset_runner)))
  = [PyFloat f0_0; PyFloat f0_0]
  /\ throttles_of motor2
       (trace (hw (run_schedule 11 (Fg_enter :: repeat Bg 12) reset_runner)))
     = [PyFloat f0_0; PyFloat f0_0]
  /\ running (bg (run_schedule 11 (Fg_enter :: repeat Bg 12) reset_runner)) = true.
Proof. vm_compute. repeat split; reflexivity. Qed.

(** C4, amended: the task ["reset"] resolves to [reset_motors]; one call of
    it makes exactly one throttle write per motor, the body motor first,
    both with 0.0 and with no hold, and whatever the throttles were before
    both are 0.0 afterwards.  The thread treats it as any other method:
    when it tests the flag and finds it unset, it runs the method again,
    followed by the pause of 0.2 s. *)
Theorem reset_one_write_per_motor
        (fuel : nat) (slf : BillyBass) (t1 t2 : pynum) (tr : list cmd) :
  resolve "reset" = Some m_reset_motors
  /\ call fuel m_reset_motors = Some reset_motors
  /\ steps_of reset_motors
     = [(motor1, PyFloat f0_0, None); (motor2, PyFloat f0_0, None)]
  /\ exec_cmds reset_motors (World t1 t2 tr [])
     = (World (PyFloat f0_0) (PyFloat f0_0) (tr ++ reset_motors) [], None)
  /\ (done slf = false ->
      exec slf = Some m_reset_motors ->
      forall w, bg_step fuel (System slf LoopTest w)
                = System slf (Body (reset_motors ++ [pause])) w).
Proof.
  split; [reflexivity|]. split; [reflexivity|]. split; [reflexivity|]. split.
  - unfold reset_motors. cbn [self_motor map snd exec_cmds exec_cmd].
    unfold next_fault, emit, write. cbn [faults trace throttle1 throttle2].
    now rewrite <- !app_assoc.
  - intros Hdone Hexec w. unfold bg_step. cbn [bg self hw].
    now rewrite Hdone, Hexec.
Qed.

Lemma reset_one_write_per_motor_witness :
  done (Object "reset" false (Some m_reset_motors)) = false
  /\ exec (Object "reset" false (Some m_reset_motors)) = Some m_reset_motors
  /\ bg_step 11 (System (Object "reset" false (Some m_reset_motors)) LoopTest calm)
     = System (Object "reset" false (Some m_reset_motors))
              (Body (reset_motors ++ [pause])) calm.
Proof.
  split; [reflexivity|]. split; [reflexivity|].
  destruct (reset_one_write_per_motor
              11 (Object "reset" false (Some m_reset_motors))
              (PyInt 0) (PyInt 0) [])
    as (_ & _ & _ & _ & H).
  exact (H eq_refl eq_refl calm).
Defined.

(* ================================================================== *)
(** ** The throttle range *)

Lemma in_range_emit_log (w : world) (l : level) (msg : message) :
  forallb cmd_in_range (trace w) = true ->
  forallb cmd_in_range (trace (emit (Log l msg) w)) = true.
Proof. intro H. cbn [emit trace]. now rewrite forallb_app, H. Qed.

Lemma in_range_bg_step (fuel : nat) (s : system) :
  in_range_inv s -> in_range_inv (bg_step fuel s).
Proof.
  intros [Htr Hrest]. unfold in_range_inv, bg_step.
  destruct (bg s) as [| | |[|c rest]|e| |e|] eqn:Hbg;
    rewrite ?Hbg; cbn [bg hw in_progress] in *;
    try (split; [assumption|reflexivity || assumption]).
  - split; [now apply in_range_emit_log | reflexivity].
  - destruct (done (self s)); [now split|].
    destruct (exec (self s)) as [f|]; [|now split].
    destruct (call fuel f) as [p|] eqn:Hcall; [|now split].
    cbn [bg hw in_progress]. split; [assumption|].
    rewrite forallb_app, (call_in_range fuel f p Hcall). reflexivity.
  - cbn [forallb] in Hrest. apply andb_prop in Hrest as [Hc Hrest].
    destruct (exec_cmd c (hw s)) as [w [e|]] eqn:E; cbn [bg hw in_progress].
    + apply exec_cmd_raises in E as [E _]. rewrite E. now split.
    + apply exec_cmd_returns in E. rewrite E, forallb_app, Htr.
      cbn [forallb]. rewrite Hc. now split.
  - split; [now apply in_range_emit_log | reflexivity].
Qed.

Lemma in_range_stop (s : system) :
  in_range_inv s -> in_range_inv (snd (stop s)).
Proof.
  intros [Htr Hrest]. rewrite stop_spec. split; cbn [snd hw bg].
  - now apply in_range_emit_log.
  - exact Hrest.
Qed.

Lemma in_range_enter (s : system) :
  in_range_inv s -> in_range_inv (snd (__enter__ s)).
Proof.
  intros [Htr Hrest]. unfold __enter__, start.
  destruct (resolve (task (self s))) as [f|]; [|now split].
  cbn [bg]. destruct (bg s) eqn:Hbg; split; cbn [snd hw bg in_progress];
    try (now apply in_range_emit_log); try reflexivity; exact Hrest.
Qed.

Lemma in_range_schedule (fuel : nat) (sch : list tick) :
  forall s, in_range_inv s -> in_range_inv (run_schedule fuel sch s).
Proof.
  unfold run_schedule. induction sch as [|t sch IH]; intros s H; [exact H|].
  cbn [fold_left]. apply IH. destruct t; cbn [sched_step].
  - now apply in_range_enter.
  - now apply in_range_stop.
  - now apply in_range_stop.
  - now apply in_range_bg_step.
Qed.

(** C6: take a runner as the constructor leaves it, for any task string,
    any throttles before and any faults to come, and let any schedule of
    [__enter__], [__exit__], [stop] and background steps act on it, with any
    fuel.  Every throttle write in the trace has a value between -1.0 and
    1.0; so has every write still to come in the iteration in progress. *)
Theorem throttle_always_in_range
        (fuel : nat) (t : string) (t1 t2 : pynum) (fs : list (option exn))
        (sch : list tick) :
  __init__ None t (fresh t1 t2 fs) = inr (constructed t (fresh t1 t2 fs))
  /\ forallb cmd_in_range
       (trace (hw (run_schedule fuel sch (constructed t (fresh t1 t2 fs)))))
     = true
  /\ forallb cmd_in_range
       (in_progress (bg (run_schedule fuel sch (constructed t (fresh t1 t2 fs)))))
     = true.
Proof.
  split; [reflexivity|]. apply in_range_schedule. split; reflexivity.
Qed.

(* ================================================================== *)
(** ** [run_motor] and the motion methods on the motors *)

Lemma last_cons {A : Type} (x d : A) (l : list A) : last (x :: l) d = last l x.
Proof.
  revert x d. induction l as [|y l IH]; intros x d; [reflexivity|].
  change (last (x :: y :: l) d) with (last (y :: l) d).
  now rewrite !IH.
Qed.

Lemma throttles_of_app (m : motor) (p q : list cmd) :
  throttles_of m (p ++ q) = throttles_of m p ++ throttles_of m q.
Proof. unfold throttles_of. apply flat_map_app. Qed.

Lemma last_commanded_app (m : motor) (prior : pynum) (p q : list cmd) :
  last_commanded m prior (p ++ q) = last_commanded m (last_commanded m prior p) q.
Proof.
  unfold last_commanded. rewrite throttles_of_app.
  generalize (throttles_of m q) as b. generalize (throttles_of m p) as a.
  intros a b. revert prior. induction a as [|x a IH]; intro prior; [reflexivity|].
  change ((x :: a) ++ b) with (x :: (a ++ b)). now rewrite !last_cons.
Qed.

Lemma exec_cmds_app (p q : list cmd) :
  forall w, exec_cmds (p ++ q) w
            = match exec_cmds p w with
              | (w', None) => exec_cmds q w'
              | (w', Some e) => (w', Some e)
              end.
Proof.
  induction p as [|c p IH]; intro w; [reflexivity|].
  cbn [app exec_cmds]. destruct (exec_cmd c w) as [w1 [e|]]; [reflexivity|].
  apply IH.
Qed.

(** With no fault to come and no [Raise] among them, commands run to the
    end: all are in the trace and each motor holds the last value
    commanded to it. *)
Lemma exec_no_fault (p : list cmd) :
  forallb raises_nothing p = true ->
  forall t1 t2 tr,
    exec_cmds p (World t1 t2 tr [])
    = (World (last_commanded motor1 t1 p) (last_commanded motor2 t2 p)
             (tr ++ p) [],
       None).
Proof.
  induction p as [|c p IH]; intros Hp t1 t2 tr.
  - cbn. now rewrite app_nil_r.
  - cbn [forallb] in Hp. apply andb_prop in Hp as [Hc Hp].
    cbn [exec_cmds].
    destruct c as [[|] v| d | l msg | e]; try discriminate Hc;
      cbn [exec_cmd next_fault faults write]; unfold emit;
      cbn [faults trace throttle1 throttle2].
    + rewrite (IH Hp);
        unfold last_commanded; cbn [throttles_of flat_map motor_eqb app];
        fold (throttles_of motor1 p); fold (throttles_of motor2 p);
        rewrite ?last_cons, <- app_assoc; reflexivity.
    + rewrite (IH Hp);
        unfold last_commanded; cbn [throttles_of flat_map motor_eqb app];
        fold (throttles_of motor1 p); fold (throttles_of motor2 p);
        rewrite ?last_cons, <- app_assoc; reflexivity.
    + rewrite (IH Hp). now rewrite <- app_assoc.
    + rewrite (IH Hp). now rewrite <- app_assoc.
Qed.


Lemma throttles_of_log_cons (m : motor) (l : level) (msg : message) (p : list cmd) :
  throttles_of m (Log l msg :: p) = throttles_of m p.
Proof. reflexivity. Qed.

Lemma throttles_of_steps (m m' : motor) (d : pynum) (steps : list pynum) :
  throttles_of m' (flat_map (one_step m d) steps)
  = if motor_eqb m' m then steps else [].
Proof.
  induction steps as [|v steps IH].
  - now destruct (motor_eqb m' m).
  - cbn [flat_map one_step release_motor app].
    unfold throttles_of in *. cbn [flat_map app]. rewrite IH.
    now destruct (motor_eqb m' m).
Qed.



(** The steps before the first failing write run as if nothing were wrong. *)
Lemma exec_steps_before_fault (m : motor) (d : pynum) (pre : list pynum) :
  forall (q : list cmd) (t1 t2 : pynum) (tr : list cmd) (fs : list (option exn)),
    exec_cmds (flat_map (one_step m d) pre ++ q)
              (World t1 t2 tr (repeat None (List.length pre) ++ fs))
    = exec_cmds q
        (World (last_commanded motor1 t1 (flat_map (one_step m d) pre))
               (last_commanded motor2 t2 (flat_map (one_step m d) pre))
               (tr ++ flat_map (one_step m d) pre) fs).
Proof.
  induction pre as [|v pre IH]; intros q t1 t2 tr fs.
  - cbn. now rewrite app_nil_r.
  - cbn [flat_map one_step release_motor List.length repeat app exec_cmds
         exec_cmd next_fault faults].
    destruct m; cbn [write]; unfold emit;
      cbn [faults trace throttle1 throttle2];
      rewrite IH; unfold last_commanded;
      cbn [throttles_of flat_map motor_eqb app];
      rewrite ?last_cons, <- !app_assoc; reflexivity.
Qed.


(** X13: when the mouth motor fails on a write of the sweep, [greet] raises
    at once and its closing [throttle = 0] is not issued: the mouth holds
    the last value of the sweep that was written (what it held before, if
    the first write fails), the only mouth writes added to the trace are
    the sweep values before the failing one, and the body is untouched. *)
Theorem greet_fault_leaves_mouth
        (fuel : nat) (p : list cmd) (pre : list float) (v : float)
        (post : list float) (t1 t2 : pynum) (tr : list cmd) (e : exn)
        (fs : list (option exn)) :
  greet fuel = Some p ->
  sweep = pre ++ v :: post ->
  exists w',
    exec_cmds p (World t1 t2 tr (repeat None (List.length pre) ++ Some e :: fs))
    = (w', Some e)
    /\ throttle2 w' = last (map PyFloat pre) t2
    /\ throttle1 w' = t1
    /\ throttles_of motor2 (trace w') = throttles_of motor2 tr ++ map PyFloat pre
    /\ throttles_of motor1 (trace w') = throttles_of motor1 tr
    /\ faults w' = fs.
Proof.
  intros Hp Hsplit. apply greet_result in Hp. subst p.
  unfold greet_cmds, run_motor. fold (one_step motor2 (PyFloat f0_05)).
  rewrite Hsplit, map_app, flat_map_app, <- (length_map PyFloat pre).
  cbn [map app exec_cmds exec_cmd]. unfold emit.
  cbn [throttle1 throttle2 trace faults].
  rewrite <- app_assoc, exec_steps_before_fault.
  cbn [flat_map one_step app exec_cmds exec_cmd next_fault faults].
  eexists. split; [reflexivity|]. cbn [throttle1 throttle2 trace faults].
  unfold last_commanded.
  rewrite !throttles_of_app, !throttles_of_log_cons, !throttles_of_steps.
  cbn [motor_eqb throttles_of flat_map app]. rewrite !app_nil_r.
  repeat split; reflexivity.
Qed.

Lemma greet_fault_leaves_mouth_witness :
  greet 11 = Some greet_cmds
  /\ sweep = firstn 3 sweep ++ nth 3 sweep f0_0 :: skipn 4 sweep
  /\ exists w',
       exec_cmds greet_cmds
                 (World (PyInt 0) (PyInt 0) []
                        [None; None; None; Some (Exn "OSError" "Remote I/O error")])
       = (w', Some (Exn "OSError" "Remote I/O error"))
       /\ throttle2 w' = PyFloat (S754_finite false 7205759403792795 (-54)).
Proof.
  assert (Hg : greet 11 = Some greet_cmds) by (vm_compute; reflexivity).
  assert (Hs : sweep = firstn 3 sweep ++ nth 3 sweep f0_0 :: skipn 4 sweep)
    by reflexivity.
  split; [exact Hg|]. split; [exact Hs|].
  destruct (greet_fault_leaves_mouth
              11 greet_cmds (firstn 3 sweep) (nth 3 sweep f0_0) (skipn 4 sweep)
              (PyInt 0) (PyInt 0) [] (Exn "OSError" "Remote I/O error") []
              Hg Hs)
    as (w' & Hexec & H2 & _).
  exists w'. split; [exact Hexec|]. rewrite H2. reflexivity.
Defined.

Lemma call_raises_nothing (fuel : nat) (f : method) (p : list cmd) :
  call fuel f = Some p -> forallb raises_nothing p = true.
Proof.
  destruct f; cbn [call]; intro H;
    try (injection H as <-; vm_compute; reflexivity).
  apply greet_result in H. subst p. vm_compute. reflexivity.
Qed.

(** X4: on motors that do not fail, one call of a method runs all its
    commands and leaves each motor at a position that does not depend on
    what it held before: [move_head] and [trigger] leave the body at -1.0,
    [move_tail], [dance] and [reset_motors] leave it at 0.0; [move_mouth],
    [response], [trigger] and [reset_motors] leave the mouth at 0.0 and
    [greet] at the integer 0; a motor a method does not write keeps its
    value. *)
Theorem method_leaves_motors
        (fuel : nat) (f : method) (p : list cmd) (t1 t2 : pynum)
        (tr : list cmd) :
  call fuel f = Some p ->
  exists w',
    exec_cmds p (World t1 t2 tr []) = (w', None)
    /\ trace w' = tr ++ p
    /\ throttle1 w' = or_prior (fst (rest_position f)) t1
    /\ throttle2 w' = or_prior (snd (rest_position f)) t2
    /\ faults w' = [].
Proof.
  intro Hcall. eexists.
  split; [apply exec_no_fault, (call_raises_nothing fuel f p Hcall)|].
  cbn [trace faults throttle1 throttle2]. split; [reflexivity|].
  assert (Hp : p = match f with
                   | m_greet => greet_cmds
                   | m_move_head => move_head
                   | m_move_tail => move_tail
                   | m_move_mouth => move_mouth
                   | m_trigger => trigger
                   | m_response => response
                   | m_dance => dance
                   | m_reset_motors => reset_motors
                   end).
  { destruct f; cbn [call] in Hcall; try (now injection Hcall).
    now apply greet_result in Hcall. }
  subst p. destruct f; vm_compute; repeat split; reflexivity.
Qed.

Lemma method_leaves_motors_witness :
  call 11 m_trigger = Some trigger
  /\ exists w',
       exec_cmds trigger (World (PyInt 1) (PyInt 1) [] []) = (w', None)
       /\ throttle1 w' = PyFloat (fneg f1_0)
       /\ throttle2 w' = PyFloat f0_0.
Proof.
  split; [reflexivity|].
  destruct (method_leaves_motors 11 m_trigger trigger (PyInt 1) (PyInt 1) []
                                 eq_refl)
    as (w' & Hexec & _ & H1 & H2 & _).
  exists w'. split; [exact Hexec|]. split; [exact H1 | exact H2].
Defined.

(* ================================================================== *)
(** ** The loop of [run], iteration after iteration *)

Section Iterations.

Variable fuel : nat.

(** From the loop test to the next loop test. *)
Lemma one_iteration (f : method) (p : list cmd) (slf : BillyBass)
      (t1 t2 : pynum) (tr : list cmd) :
  done slf = false ->
  exec slf = Some f ->
  call fuel f = Some p ->
  bg_steps fuel (List.length p + 3) (System slf LoopTest (World t1 t2 tr []))
  = System slf LoopTest
      (World (last_commanded motor1 t1 (iteration p))
             (last_commanded motor2 t2 (iteration p))
             (tr ++ iteration p) []).
Proof.
  intros Hdone Hexec Hcall.
  replace (List.length p + 3)%nat with (1 + (List.length (iteration p) + 1))%nat
    by (unfold iteration; rewrite length_app; cbn; lia).
  rewrite bg_steps_add. cbn [bg_steps]. unfold bg_step at 1. cbn [bg self hw].
  rewrite Hdone, Hexec, Hcall. fold (iteration p). rewrite bg_steps_add.
  assert (Hnr : forallb raises_nothing (iteration p) = true).
  { unfold iteration. rewrite forallb_app, (call_raises_nothing fuel f p Hcall).
    reflexivity. }
  rewrite (body_returns fuel (iteration p) slf _ _ (exec_no_fault _ Hnr t1 t2 tr)).
  reflexivity.
Qed.

(** X5: as long as the flag is unset and the motors do not fail, the
    thread goes from one test of the flag to the next in as many steps as
    the action has commands plus three, and in between it carries out the
    whole action and then the pause of 0.2 s.  After [k] such rounds the
    trace has grown by [k] copies of action and pause, and each motor holds
    the last value commanded to it. *)
Theorem whole_iterations
        (f : method) (p : list cmd) (slf : BillyBass) (k : nat) :
  done slf = false ->
  exec slf = Some f ->
  call fuel f = Some p ->
  forall t1 t2 tr,
    bg_steps fuel (k * (List.length p + 3))
             (System slf LoopTest (World t1 t2 tr []))
    = System slf LoopTest
        (World (last_commanded motor1 t1 (List.concat (repeat (iteration p) k)))
               (last_commanded motor2 t2 (List.concat (repeat (iteration p) k)))
               (tr ++ List.concat (repeat (iteration p) k)) []).
Proof.
  intros Hdone Hexec Hcall. induction k as [|k IH]; intros t1 t2 tr.
  - cbn. now rewrite app_nil_r.
  - cbn [Nat.mul repeat List.concat]. rewrite bg_steps_add.
    rewrite (one_iteration f p slf t1 t2 tr Hdone Hexec Hcall), IH.
    now rewrite !last_commanded_app, app_assoc.
Qed.

End Iterations.

Lemma whole_iterations_witness :
  done (Object "move_head" false (Some m_move_head)) = false
  /\ exec (Object "move_head" false (Some m_move_head)) = Some m_move_head
  /\ call 11 m_move_head = Some move_head
  /\ bg (bg_steps 11 (2 * (List.length move_head + 3))
                  (System (Object "move_head" false (Some m_move_head))
                          LoopTest (World (PyInt 0) (PyInt 0) [] [])))
     = LoopTest
  /\ throttles_of motor1
       (trace (hw (bg_steps 11 (2 * (List.length move_head + 3))
                            (System (Object "move_head" false (Some m_move_head))
                                    LoopTest (World (PyInt 0) (PyInt 0) [] [])))))
     = [PyFloat f0_0; PyFloat (fneg f1_0); PyFloat f0_0; PyFloat (fneg f1_0)].
Proof.
  split; [reflexivity|]. split; [reflexivity|]. split; [reflexivity|].
  rewrite (whole_iterations 11 m_move_head move_head
             (Object "move_head" false (Some m_move_head)) 2
             eq_refl eq_refl eq_refl (PyInt 0) (PyInt 0) []).
  cbn [bg hw trace]. split; [reflexivity | vm_compute; reflexivity].
Defined.

(* ================================================================== *)
(** ** What holds under every schedule *)

Section ScheduleInvariant.

Variable fuel : nat.
Variable I : system -> Prop.
Hypothesis I_enter : forall s, I s -> I (snd (__enter__ s)).
Hypothesis I_stop : forall s, I s -> I (snd (stop s)).
Hypothesis I_bg : forall s, I s -> I (bg_step fuel s).

Lemma schedule_invariant (sch : list tick) :
  forall s, I s -> I (run_schedule fuel sch s).
Proof.
  unfold run_schedule. induction sch as [|t sch IH]; intros s H; [exact H|].
  cbn [fold_left]. apply IH. destruct t; cbn [sched_step]; auto.
Qed.

End ScheduleInvariant.

(** Every change of the world is the effect of one command. *)
Section WorldInvariant.

Variable P : world -> Prop.
Hypothesis P_cmd : forall c w, P w -> P (fst (exec_cmd c w)).



End WorldInvariant.




Lemma steps_of_emit_log (w : world) (l : level) (msg : message) :
  steps_of (trace (emit (Log l msg) w)) = steps_of (trace w).
Proof. apply steps_of_log. Qed.

(** X9: a runner whose task is none of the eight names can never move a
    motor.  Whatever schedule of [__enter__], [__exit__], [stop] and
    background steps acts on it, its thread is never started, no method is
    bound to [self.exec], no throttle is written and both motors hold what
    they held. *)
Theorem unknown_task_never_moves
        (fuel : nat) (t : string) (w : world) (sch : list tick) :
  ~ In t task_names ->
  bg (run_schedule fuel sch (constructed t w)) = Initial
  /\ exec (self (run_schedule fuel sch (constructed t w))) = None
  /\ steps_of (trace (hw (run_schedule fuel sch (constructed t w))))
     = steps_of (trace w)
  /\ throttles (hw (run_schedule fuel sch (constructed t w))) = throttles w.
Proof.
  intro Hbad.
  assert (Hres : resolve t = None).
  { destruct (resolve t) eqn:E; [|reflexivity].
    exfalso. apply Hbad, resolve_names. congruence. }
  assert (H : task (self (run_schedule fuel sch (constructed t w))) = t
              /\ bg (run_schedule fuel sch (constructed t w)) = Initial
              /\ exec (self (run_schedule fuel sch (constructed t w))) = None
              /\ steps_of (trace (hw (run_schedule fuel sch (constructed t w))))
                 = steps_of (trace w)
              /\ throttles (hw (run_schedule fuel sch (constructed t w)))
                 = throttles w).
  { apply (schedule_invariant fuel
             (fun s => task (self s) = t /\ bg s = Initial
                       /\ exec (self s) = None
                       /\ steps_of (trace (hw s)) = steps_of (trace w)
                       /\ throttles (hw s) = throttles w)).
    - intros s (Ht & Hbg & Hx & Hst & Hth).
      rewrite enter_unresolved by (now rewrite Ht). cbn [snd]. now repeat split.
    - intros s (Ht & Hbg & Hx & Hst & Hth). rewrite stop_spec.
      cbn [snd self task bg exec hw]. repeat split; try assumption.
      now rewrite ?steps_of_emit_log.
    - intros s (Ht & Hbg & Hx & Hst & Hth). unfold bg_step. rewrite Hbg.
      now repeat split.
    - cbn [constructed self task bg exec hw]. repeat split.
      apply steps_of_emit_log. }
  tauto.
Qed.

Lemma unknown_task_never_moves_witness :
  ~ In "sing" task_names
  /\ bg (run_schedule 11 [Fg_enter; Bg; Bg; Fg_stop; Fg_enter; Bg] sing_runner)
     = Initial.
Proof.
  assert (Hsing : ~ In "sing" task_names).
  { cbn. intros [H|[H|[H|[H|[H|[H|[H|[H|[]]]]]]]]]; discriminate H. }
  split; [exact Hsing|].
  exact (proj1 (unknown_task_never_moves
                  11 "sing" calm [Fg_enter; Bg; Bg; Fg_stop; Fg_enter; Bg] Hsing)).
Defined.

(** With the flag set and the thread not yet in a call of the action, no
    schedule makes it write. *)
Lemma stopped_early_stays (fuel : nat) (sch : list tick) (s : system) :
  done (self s) = true ->
  before_first_call (bg s) = true ->
  done (self (run_schedule fuel sch s)) = true
  /\ before_first_call (bg (run_schedule fuel sch s)) = true
  /\ steps_of (trace (hw (run_schedule fuel sch s))) = steps_of (trace (hw s))
  /\ throttles (hw (run_schedule fuel sch s)) = throttles (hw s).
Proof.
  intros Hdone Hbefore.
  apply (schedule_invariant fuel
           (fun s' => done (self s') = true
                      /\ before_first_call (bg s') = true
                      /\ steps_of (trace (hw s')) = steps_of (trace (hw s))
                      /\ throttles (hw s') = throttles (hw s))).
  - intros s' (Hd & Hb & Hst & Hth). unfold __enter__, start.
    destruct (resolve (task (self s'))); [|now repeat split].
    cbn [bg]. destruct (bg s'); try discriminate Hb;
      cbn [snd self done bg hw]; repeat split; try assumption;
      now rewrite ?steps_of_emit_log.
  - intros s' (Hd & Hb & Hst & Hth). rewrite stop_spec.
    cbn [snd self done bg hw]. repeat split; try assumption.
    now rewrite ?steps_of_emit_log.
  - intros s' (Hd & Hb & Hst & Hth). unfold bg_step.
    destruct (bg s') eqn:E; try discriminate Hb; rewrite ?Hd;
      cbn [self done bg hw]; rewrite ?E; repeat split; try assumption;
      now rewrite ?steps_of_emit_log.
  - now repeat split.
Qed.

(** X7: when [__exit__] (or [stop]) follows [__enter__] before the thread
    has taken a step, the task never runs: whatever the task, the fuel and
    the rest of the schedule, no throttle is ever written and both motors
    hold what they held before.  The thread tests the flag before its first
    call of the action. *)
Theorem exit_before_first_step_moves_nothing
        (fuel : nat) (t : string) (w : world) (sch : list tick) :
  steps_of (trace (hw (run_schedule fuel (Fg_enter :: Fg_exit :: sch)
                                    (constructed t w))))
  = steps_of (trace w)
  /\ throttles (hw (run_schedule fuel (Fg_enter :: Fg_exit :: sch)
                                 (constructed t w)))
     = throttles w
  /\ before_first_call (bg (run_schedule fuel (Fg_enter :: Fg_exit :: sch)
                                         (constructed t w)))
     = true.
Proof.
  change (run_schedule fuel (Fg_enter :: Fg_exit :: sch) (constructed t w))
    with (run_schedule fuel sch
            (snd (__exit__ (snd (__enter__ (constructed t w)))))).
  set (s := snd (__exit__ (snd (__enter__ (constructed t w))))).
  assert (Hs : done (self s) = true
               /\ before_first_call (bg s) = true
               /\ steps_of (trace (hw s)) = steps_of (trace w)
               /\ throttles (hw s) = throttles w).
  { subst s. unfold __exit__. rewrite stop_spec. cbn [snd self done bg hw].
    unfold __enter__, start. cbn [constructed self task bg hw].
    destruct (resolve t); cbn [snd bg hw]; unfold constructed; cbn [hw];
      repeat split; now rewrite ?steps_of_emit_log. }
  destruct Hs as (Hd & Hb & Hst & Hth).
  destruct (stopped_early_stays fuel sch s Hd Hb) as (_ & Hb' & Hst' & Hth').
  rewrite Hst', Hth', Hst, Hth. now repeat split.
Qed.

(** X11: a thread that is over stays over.  Whatever schedule acts on
    the runner afterwards, [__enter__] included, the thread is as it ended,
    no throttle is written and both motors hold what they held: a runner
    is good for one run. *)
Theorem terminated_is_final (fuel : nat) (s : system) (sch : list tick) :
  terminated (bg s) = true ->
  bg (run_schedule fuel sch s) = bg s
  /\ steps_of (trace (hw (run_schedule fuel sch s))) = steps_of (trace (hw s))
  /\ throttles (hw (run_schedule fuel sch s)) = throttles (hw s).
Proof.
  intro Hterm.
  apply (schedule_invariant fuel
           (fun s' => bg s' = bg s
                      /\ steps_of (trace (hw s')) = steps_of (trace (hw s))
                      /\ throttles (hw s') = throttles (hw s))).
  - intros s' (Hb & Hst & Hth). unfold __enter__, start.
    destruct (resolve (task (self s'))); [|now repeat split].
    cbn [bg]. rewrite Hb.
    destruct (bg s); try discriminate Hterm; cbn [snd bg hw];
      repeat split; try assumption; now rewrite ?steps_of_emit_log.
  - intros s' (Hb & Hst & Hth). rewrite stop_spec. cbn [snd bg hw].
    repeat split; try assumption. now rewrite ?steps_of_emit_log.
  - intros s' (Hb & Hst & Hth). unfold bg_step. rewrite Hb.
    destruct (bg s) eqn:E; try discriminate Hterm; rewrite ?Hb, ?E;
      now repeat split.
  - now repeat split.
Qed.

Lemma terminated_is_final_witness :
  terminated (bg stopped_runner) = true
  /\ bg (run_schedule 11 [Fg_enter; Bg; Bg; Bg; Bg; Bg] stopped_runner) = Returned
  /\ fst (__enter__ stopped_runner)
     = Raises (RuntimeError "threads can only be started once").
Proof.
  assert (Hterm : terminated (bg stopped_runner) = true) by reflexivity.
  split; [exact Hterm|]. split; [|vm_compute; reflexivity].
  rewrite (proj1 (terminated_is_final 11 stopped_runner
                    [Fg_enter; Bg; Bg; Bg; Bg; Bg] Hterm)).
  reflexivity.
Defined.

(* ================================================================== *)
(** ** A runner nobody stops *)

Lemma call_returns (fuel : nat) (f : method) :
  (11 <= fuel)%nat -> exists p, call fuel f = Some p.
Proof.
  intro H. rewrite (call_enough fuel f H).
  destruct f; cbn [call]; try rewrite (greet_enough 11 (le_n 11));
    eexists; reflexivity.
Qed.

Lemma unstopped_enter (s : system) :
  unstopped s -> unstopped (snd (__enter__ s)).
Proof.
  intros (Hd & Hf & Hnr & Hbg). unfold __enter__, start.
  destruct (resolve (task (self s))) as [f|]; [|now repeat split].
  cbn [bg]. destruct Hbg as [Hbg|[Hrun _]].
  - rewrite Hbg. unfold unstopped. cbn [snd self done exec bg hw in_progress].
    repeat split; try assumption. right. split; [reflexivity | discriminate].
  - destruct (bg s) eqn:E; try discriminate Hrun; unfold unstopped;
      cbn [snd self done exec bg hw in_progress] in *;
      repeat split; try assumption; right; (split; [reflexivity | discriminate]).
Qed.

Lemma unstopped_bg_step (fuel : nat) (s : system) :
  (11 <= fuel)%nat -> unstopped s -> unstopped (bg_step fuel s).
Proof.
  intros Hfuel (Hd & Hf & Hnr & Hbg). unfold bg_step.
  destruct Hbg as [Hbg|[Hrun Hx]]; [rewrite Hbg; repeat split; auto|].
  destruct (bg s) as [| | |[|c rest]|e| |e|] eqn:E; try discriminate Hrun;
    unfold unstopped; cbn [self done exec bg hw in_progress] in *.
  - repeat split; try assumption. right. now split.
  - rewrite Hd. destruct (exec (self s)) as [f|] eqn:Ex; [|congruence].
    destruct (call_returns fuel f Hfuel) as [p Hp]. rewrite Hp.
    cbn [self done exec bg hw in_progress]. repeat split; try assumption.
    + rewrite forallb_app, (call_raises_nothing fuel f p Hp). reflexivity.
    + right. split; [reflexivity | congruence].
  - repeat split; try assumption. right. now split.
  - cbn [forallb] in Hnr. apply andb_prop in Hnr as [Hc Hrest].
    assert (Hok : exists w', exec_cmd c (hw s) = (w', None) /\ faults w' = []).
    { destruct c as [m v| d | l msg | e]; try discriminate Hc;
        cbn [exec_cmd]; unfold next_fault; rewrite ?Hf;
        eexists; (split; [reflexivity|]); try destruct m; exact Hf. }
    destruct Hok as (w' & Hw & Hf'). rewrite Hw.
    cbn [self done exec bg hw in_progress]. repeat split; try assumption.
    right. now split.
Qed.

(** X6: a runner that nobody stops does not stop.  Take a runner as the
    constructor leaves it, on motors that do not fail, with fuel for the
    loop of [greet], and a schedule in which neither [stop] nor [__exit__]
    occurs.  The flag stays unset and the thread is either not started
    (no [__enter__] yet, or an unknown task) or running: it has neither
    returned nor died. *)
Theorem runs_until_stopped
        (fuel : nat) (t : string) (t1 t2 : pynum) (sch : list tick) :
  (11 <= fuel)%nat ->
  forallb no_stop sch = true ->
  terminated (bg (run_schedule fuel sch (constructed t (fresh t1 t2 [])))) = false
  /\ done (self (run_schedule fuel sch (constructed t (fresh t1 t2 [])))) = false
  /\ (bg (run_schedule fuel sch (constructed t (fresh t1 t2 []))) = Initial
      \/ running (bg (run_schedule fuel sch (constructed t (fresh t1 t2 []))))
         = true).
Proof.
  intros Hfuel Hsch.
  assert (H : unstopped (run_schedule fuel sch (constructed t (fresh t1 t2 [])))).
  { assert (H0 : unstopped (constructed t (fresh t1 t2 [])))
      by (repeat split; now left).
    revert H0. generalize (constructed t (fresh t1 t2 [])).
    unfold run_schedule. induction sch as [|k sch IH]; intros s Hs; [exact Hs|].
    cbn [forallb] in Hsch. apply andb_prop in Hsch as [Hk Hsch].
    cbn [fold_left]. apply (IH Hsch).
    destruct k; try discriminate Hk; cbn [sched_step].
    - now apply unstopped_enter.
    - now apply unstopped_bg_step. }
  destruct H as (Hd & _ & _ & Hbg).
  split; [|split; [exact Hd | destruct Hbg as [Hbg|[Hrun _]]; auto]].
  destruct Hbg as [->|[Hrun _]]; [reflexivity|].
  now destruct (bg _).
Qed.

Lemma runs_until_stopped_witness :
  (11 <= 11)%nat
  /\ forallb no_stop (Fg_enter :: repeat Bg 200) = true
  /\ running (bg (run_schedule 11 (Fg_enter :: repeat Bg 200)
                               (constructed "greet" (fresh (PyInt 0) (PyInt 0) []))))
     = true.
Proof.
  assert (Hsch : forallb no_stop (Fg_enter :: repeat Bg 200) = true)
    by (vm_compute; reflexivity).
  split; [apply le_n|]. split; [exact Hsch|].
  destruct (runs_until_stopped 11 "greet" (PyInt 0) (PyInt 0)
                               (Fg_enter :: repeat Bg 200) (le_n 11) Hsch)
    as (_ & _ & [H|H]); [|exact H].
  vm_compute in H. discriminate H.
Defined.

(* ================================================================== *)
(** ** The object *)

(** X10: started with [start] instead of [__enter__], the thread finds no
    [self.exec]: at its first turn of the loop it raises [AttributeError],
    logs it and dies.  Whatever the task, no throttle is written and the
    motors hold what they held. *)
Theorem start_without_enter (fuel : nat) (t : string) (w : world) (n : nat) :
  (3 <= n)%nat ->
  (exists e, bg (bg_steps fuel n (started_directly t w)) = Propagated e
             /\ exn_class e = "AttributeError"
             /\ trace (hw (bg_steps fuel n (started_directly t w)))
                = trace w ++ [Log INFO (Text "Billybass thread initialized");
                              Log DEBUG (Text "Executing");
                              Log ERROR (StrOf e)])
  /\ steps_of (trace (hw (bg_steps fuel n (started_directly t w))))
     = steps_of (trace w)
  /\ throttles (hw (bg_steps fuel n (started_directly t w))) = throttles w.
Proof.
  intro Hn.
  rewrite (terminated_from fuel (started_directly t w)
             (bg_steps fuel 3 (started_directly t w)) 3 n eq_refl eq_refl Hn).
  unfold started_directly, start, constructed. cbn [bg snd bg_steps].
  unfold bg_step; cbn [bg self done exec hw]. split; [|split].
  - eexists. split; [reflexivity|]. split; [reflexivity|].
    unfold emit. cbn [trace]. now rewrite <- !app_assoc.
  - now rewrite !steps_of_emit_log.
  - reflexivity.
Qed.

Lemma start_without_enter_witness :
  (3 <= 3)%nat
  /\ steps_of (trace (hw (bg_steps 11 3 (started_directly "dance" calm)))) = []
  /\ terminated (bg (bg_steps 11 3 (started_directly "dance" calm))) = true.
Proof.
  split; [apply le_n|].
  destruct (start_without_enter 11 "dance" calm 3 (le_n 3))
    as ((e & Hbg & _) & Hsteps & _).
  split; [exact Hsteps|]. rewrite Hbg. reflexivity.
Defined.

(** The thread assigns no attribute of the object. *)
Lemma bg_step_self (fuel : nat) (s : system) : self (bg_step fuel s) = self s.
Proof.
  unfold bg_step. destruct (bg s) as [| | |[|c rest]|e| |e|]; try reflexivity.
  - destruct (done (self s)); [reflexivity|].
    destruct (exec (self s)) as [f|]; [|reflexivity].
    now destruct (call fuel f).
  - now destruct (exec_cmd c (hw s)) as [w [e|]].
Qed.

(** X12: nothing rebinds the task and nothing clears the flag.  Under
    every schedule the object keeps its task; a flag that is set stays set,
    so a stopped runner cannot be resumed; and [self.exec], bound by no
    other method than [__enter__], is unbound or the method of the task. *)
Theorem object_is_stable (fuel : nat) (s : system) (sch : list tick) :
  task (self (run_schedule fuel sch s)) = task (self s)
  /\ (done (self s) = true -> done (self (run_schedule fuel sch s)) = true)
  /\ (exec (self s) = None \/ exec (self s) = resolve (task (self s)) ->
      exec (self (run_schedule fuel sch s)) = None
      \/ exec (self (run_schedule fuel sch s))
         = resolve (task (self (run_schedule fuel sch s)))).
Proof.
  apply (schedule_invariant fuel
           (fun s' => task (self s') = task (self s)
                      /\ (done (self s) = true -> done (self s') = true)
                      /\ (exec (self s) = None
                          \/ exec (self s) = resolve (task (self s)) ->
                          exec (self s') = None
                          \/ exec (self s') = resolve (task (self s'))))).
  - intros s' (Ht & Hd & Hx). unfold __enter__, start.
    destruct (resolve (task (self s'))) as [f|] eqn:E;
      [|cbn [snd]; repeat split; try assumption; rewrite E; exact Hx].
    cbn [bg]. destruct (bg s'); cbn [snd self task done exec];
      repeat split; try assumption; intros _; right; now rewrite E.
  - intros s' (Ht & Hd & Hx). rewrite stop_spec. cbn [snd self task done exec].
    repeat split; assumption.
  - intros s' (Ht & Hd & Hx). rewrite bg_step_self. repeat split; assumption.
  - repeat split; auto.
Qed.

Lemma object_is_stable_witness :
  done (self stopped_runner) = true
  /\ (exec (self stopped_runner) = None
      \/ exec (self stopped_runner) = resolve (task (self stopped_runner)))
  /\ done (self (run_schedule 11 [Fg_enter; Bg; Bg] stopped_runner)) = true
  /\ (exec (self (run_schedule 11 [Fg_enter; Bg; Bg] stopped_runner)) = None
      \/ exec (self (run_schedule 11 [Fg_enter; Bg; Bg] stopped_runner))
         = resolve (task (self (run_schedule 11 [Fg_enter; Bg; Bg] stopped_runner)))).
Proof.
  assert (Hd : done (self stopped_runner) = true) by reflexivity.
  assert (Hx : exec (self stopped_runner) = None
               \/ exec (self stopped_runner) = resolve (task (self stopped_runner)))
    by (right; reflexivity).
  destruct (object_is_stable 11 stopped_runner [Fg_enter; Bg; Bg])
    as (_ & H1 & H2).
  split; [exact Hd|]. split; [exact Hx|]. split; [exact (H1 Hd) | exact (H2 Hx)].
Defined.

(* ================================================================== *)
(** ** How long stopping takes *)

Lemma call_length (fuel : nat) (f : method) (p : list cmd) :
  call fuel f = Some p -> (List.length p <= 33)%nat.
Proof.
  destruct f; cbn [call]; intro H;
    try (injection H as <-; vm_compute; lia).
  apply greet_result in H. subst p. vm_compute. lia.
Qed.

(** What is left of an iteration is never longer than the longest
    iteration, the one of [greet]. *)
Lemma in_progress_bounded (fuel : nat) (t : string) (w : world) (sch : list tick) :
  (List.length (in_progress (bg (run_schedule fuel sch (constructed t w)))) <= 34)%nat.
Proof.
  apply (schedule_invariant fuel
           (fun s => (List.length (in_progress (bg s)) <= 34)%nat)).
  - intros s H. unfold __enter__, start.
    destruct (resolve (task (self s))); [|exact H].
    cbn [bg]. destruct (bg s) eqn:Hbg;
      cbn [snd bg in_progress List.length] in *; rewrite ?Hbg;
      cbn [in_progress List.length]; lia.
  - intros s H. rewrite stop_spec. exact H.
  - intros s H. unfold bg_step.
    destruct (bg s) as [| | |[|c rest]|e| |e|] eqn:Hbg;
      cbn [bg in_progress List.length] in *; rewrite ?Hbg;
      cbn [in_progress List.length]; try lia.
    + destruct (done (self s)); [cbn; lia|].
      destruct (exec (self s)) as [f|]; [|cbn; lia].
      destruct (call fuel f) as [p|] eqn:E; [|cbn; lia].
      cbn [bg in_progress]. rewrite length_app. cbn [List.length].
      pose proof (call_length fuel f p E). lia.
    + destruct (exec_cmd c (hw s)) as [w' [e|]]; cbn [bg in_progress]; cbn; lia.
  - cbn. lia.
Qed.

(** X14: stopping takes a bounded number of steps.  Take a runner as the
    constructor leaves it, any task, any world, any fuel, and any schedule
    that brings its thread to a running state; once [stop] is called
    there, the thread is over after 36 steps at most, whether it returns or
    dies on an actuator fault: the longest iteration, the one of [greet]
    with its pause, has 34 commands. *)
Theorem stop_latency_bounded
        (fuel : nat) (t : string) (w : world) (sch : list tick) (n : nat) :
  (36 <= n)%nat ->
  running (bg (run_schedule fuel sch (constructed t w))) = true ->
  terminated
    (bg (bg_steps fuel n (snd (stop (run_schedule fuel sch (constructed t w))))))
  = true.
Proof.
  intros Hn Hrun. rewrite stop_spec. cbn [snd].
  pose proof (in_progress_bounded fuel t w sch) as Hlen.
  set (s := run_schedule fuel sch (constructed t w)) in *.
  rewrite (done_finishes fuel (Object (task (self s)) true (exec (self s)))
                         (bg s) _ n eq_refl Hrun) by lia.
  now destruct (exec_cmds _ _) as [w' [e|]].
Qed.

Lemma stop_latency_bounded_witness :
  (36 <= 36)%nat
  /\ running (bg (run_schedule 11 (Fg_enter :: repeat Bg 2)
                               (constructed "greet" calm))) = true
  /\ terminated
       (bg (bg_steps 11 36
              (snd (stop (run_schedule 11 (Fg_enter :: repeat Bg 2)
                                       (constructed "greet" calm))))))
     = true
  /\ terminated
       (bg (bg_steps 11 35
              (snd (stop (run_schedule 11 (Fg_enter :: repeat Bg 2)
                                       (constructed "greet" calm))))))
     = false.
Proof.
  assert (Hrun : running (bg (run_schedule 11 (Fg_enter :: repeat Bg 2)
                                           (constructed "greet" calm))) = true)
    by (vm_compute; reflexivity).
  split; [apply le_n|]. split; [exact Hrun|]. split.
  - exact (stop_latency_bounded 11 "greet" calm (Fg_enter :: repeat Bg 2) 36
                                (le_n 36) Hrun).
  - vm_compute. reflexivity.
Defined.
